(** * Menu-action handlers of the airborne-crew demo (src/domain_functions.cpp)

    A shallow embedding of the five free functions of [domain_functions.cpp]
    ([showInfo], [startProgram], [finishProgram], [saveFile], [moveCircle])
    together with the small part of their collaborators that they drive:
    SFML vectors, colours and circle shapes, the [objects::Plane] entity,
    the TGUI widget container, the native save dialog and [std::ofstream]. *)

From Stdlib Require Import ZArith List String Bool.
From Stdlib Require Import Floats.SpecFloat.
From stdpp Require Import base decidable option list gmap strings.

Import ListNotations.
Local Open Scope string_scope.
Local Open Scope bool_scope.
Local Open Scope list_scope.

(** ** Single-precision floats ([float] of C++, [50.f])

    IEEE-754 binary32 through the Standard Library's specification of
    floating-point arithmetic: 24 bits of precision, [emax = 128]. *)
Module Float32.

Definition prec : Z := 24.
Definition emax : Z := 128.

Definition float : Type := spec_float.

(** An integer literal with an [f] suffix, rounded to nearest-even. *)
Definition of_Z (z : Z) : float := binary_normalize prec emax z 0 false.

Definition add (a b : float) : float := SFadd prec emax a b.
Definition sub (a b : float) : float := SFsub prec emax a b.
Definition mul (a b : float) : float := SFmul prec emax a b.
Definition div (a b : float) : float := SFdiv prec emax a b.

#[global] Instance float_eq_dec : EqDecision float.
Proof. solve_decision. Defined.

End Float32.

(** ** The parts of SFML the handlers use *)
Module sf.

(** [sf::Vector2f]. *)
Record Vector2f : Type := mkVector2f { x : Float32.float; y : Float32.float }.

#[global] Instance Vector2f_eq_dec : EqDecision Vector2f.
Proof. solve_decision. Defined.

(** [operator-(const Vector2<T>&, const Vector2<T>&)]: memberwise. *)
Definition Vector2f_sub (l r : Vector2f) : Vector2f :=
  mkVector2f (Float32.sub (x l) (x r)) (Float32.sub (y l) (y r)).

Definition Vector2f_add (l r : Vector2f) : Vector2f :=
  mkVector2f (Float32.add (x l) (x r)) (Float32.add (y l) (y r)).

(** [sf::Color], four 8-bit channels. *)
Record Color : Type := mkColor { r : Z; g : Z; b : Z; a : Z }.

#[global] Instance Color_eq_dec : EqDecision Color.
Proof. solve_decision. Defined.

Definition Color_White : Color := mkColor 255 255 255 255.
Definition Color_Red : Color := mkColor 255 0 0 255.

(** [sf::CircleShape]: the radius and point count of the circle, the
    position of its [sf::Transformable] base and the fill colour of its
    [sf::Shape] base. *)
Record CircleShape : Type := mkCircleShape {
  radius : Float32.float;
  pointCount : nat;
  position : Vector2f;
  fillColor : Color
}.

#[global] Instance CircleShape_eq_dec : EqDecision CircleShape.
Proof. solve_decision. Defined.

(** [sf::CircleShape c(radius)]: thirty points, at the origin, white. *)
Definition CircleShape_new (rad : Float32.float) : CircleShape :=
  mkCircleShape rad 30 (mkVector2f (Float32.of_Z 0) (Float32.of_Z 0)) Color_White.

Definition setPosition (p : Vector2f) (c : CircleShape) : CircleShape :=
  mkCircleShape (radius c) (pointCount c) p (fillColor c).

Definition setFillColor (col : Color) (c : CircleShape) : CircleShape :=
  mkCircleShape (radius c) (pointCount c) (position c) col.

End sf.

Declare Scope vec_scope.
Delimit Scope vec_scope with vec.
Infix "-" := sf.Vector2f_sub : vec_scope.
Infix "+" := sf.Vector2f_add : vec_scope.

(** ** The movable entity *)
Module objects.

(** Modelled from the spec: the class [objects::Plane] is declared outside
    the translated sources.  Its four fields are those of the data model
    (shape, visibility flag, current position, target position) and each
    setter replaces the one field it is named after. *)
Record Plane : Type := mkPlane {
  primitive : sf.CircleShape;
  toDraw : bool;
  position : sf.Vector2f;
  targetPosition : sf.Vector2f
}.

#[global] Instance Plane_eq_dec : EqDecision Plane.
Proof. solve_decision. Defined.

(** Modelled from the spec: [Plane::SetPrimitive] replaces the shape
    wholesale. *)
Definition SetPrimitive (c : sf.CircleShape) (p : Plane) : Plane :=
  mkPlane c (toDraw p) (position p) (targetPosition p).

(** Modelled from the spec: [Plane::SetToDraw] sets the visibility flag. *)
Definition SetToDraw (flag : bool) (p : Plane) : Plane :=
  mkPlane (primitive p) flag (position p) (targetPosition p).

(** Modelled from the spec: [Plane::SetTargetPosition] sets the target
    position; the current position is moved by the per-frame step only. *)
Definition SetTargetPosition (t : sf.Vector2f) (p : Plane) : Plane :=
  mkPlane (primitive p) (toDraw p) (position p) t.

(** Modelled from the spec: the constant [objects::CIRCLE_SIZE] is defined
    outside the translated sources; the spec gives it as half the visual
    size of the circle, that is, its radius in both directions. *)
Definition CIRCLE_SIZE : sf.Vector2f :=
  sf.mkVector2f (Float32.of_Z 50) (Float32.of_Z 50).

End objects.

(** ** Menu items

    A menu item is the [std::vector<tgui::String>] handed to the handlers
    by the menu bar: the labels on the path from the menu to the item. *)
Definition MenuItem : Type := list string.

(** The guard shared by the four handlers,
    [menuItem.size() == 2 && menuItem[0] == category && menuItem[1] == action].
    [&&] is evaluated left to right, so both subscripts are in range when
    they are reached. *)
Definition isMenuItem (menuItem : MenuItem) (category action : string) : bool :=
  (length menuItem =? 2)%nat
  && bool_decide (menuItem !! 0%nat = Some category)
  && bool_decide (menuItem !! 1%nat = Some action).

(** ** Program: start, finish *)

Definition startProgram (plane : objects.Plane) (menuItem : MenuItem) : objects.Plane :=
  if isMenuItem menuItem "Program" "Start" then
    let c := sf.CircleShape_new (Float32.of_Z 50) in
    let c := sf.setPosition (sf.mkVector2f (Float32.of_Z 50) (Float32.of_Z 50)) c in
    let c := sf.setFillColor sf.Color_Red c in
    let plane := objects.SetPrimitive c plane in
    let plane := objects.SetToDraw true plane in
    objects.SetTargetPosition (sf.mkVector2f (Float32.of_Z 50) (Float32.of_Z 50)) plane
  else plane.

Definition finishProgram (plane : objects.Plane) (menuItem : MenuItem) : objects.Plane :=
  if isMenuItem menuItem "Program" "Finish" then objects.SetToDraw false plane
  else plane.

(** ** Graphics: following the pointer *)

Definition moveCircle (plane : objects.Plane) (mousePosition : sf.Vector2f) : objects.Plane :=
  objects.SetTargetPosition (mousePosition - objects.CIRCLE_SIZE)%vec plane.

(** ** The parts of TGUI the handlers use *)
Module tgui.

(** The address of a widget; widgets are compared by address. *)
Definition WidgetPtr : Type := nat.

(** [tgui::MessageBox::Alignment]. *)
Inductive Alignment : Type := Left | Center | Right.

#[global] Instance Alignment_eq_dec : EqDecision Alignment.
Proof. solve_decision. Defined.

(** The closures connected to [onButtonPress].  The program connects one
    kind: the lambda of [showInfo], which captures the address of its
    message box and, whatever the button, runs
    [msgBox->getParent()->remove(msgBox->shared_from_this())]. *)
Inductive ButtonSlot : Type :=
| RemoveFromParent (msgBox : WidgetPtr).

#[global] Instance ButtonSlot_eq_dec : EqDecision ButtonSlot.
Proof. solve_decision. Defined.

(** [tgui::MessageBox]: what the setters of [showInfo] write. *)
Record MessageBox : Type := mkMessageBox {
  layout : option string;
  text : string;
  buttons : list string;
  buttonAlignment : Alignment;
  onButtonPress : list ButtonSlot
}.

#[global] Instance MessageBox_eq_dec : EqDecision MessageBox.
Proof. solve_decision. Defined.

(** [tgui::MessageBox::create()]: no text, no button, no slot. *)
Definition MessageBox_create : MessageBox :=
  mkMessageBox None EmptyString [] Center [].

Definition setPosition (l : string) (m : MessageBox) : MessageBox :=
  mkMessageBox (Some l) (text m) (buttons m) (buttonAlignment m) (onButtonPress m).

Definition setText (t : string) (m : MessageBox) : MessageBox :=
  mkMessageBox (layout m) t (buttons m) (buttonAlignment m) (onButtonPress m).

Definition addButton (caption : string) (m : MessageBox) : MessageBox :=
  mkMessageBox (layout m) (text m) (buttons m ++ [caption]) (buttonAlignment m)
               (onButtonPress m).

Definition setButtonAlignment (al : Alignment) (m : MessageBox) : MessageBox :=
  mkMessageBox (layout m) (text m) (buttons m) al (onButtonPress m).

Definition connectButtonPress (s : ButtonSlot) (m : MessageBox) : MessageBox :=
  mkMessageBox (layout m) (text m) (buttons m) (buttonAlignment m)
               (onButtonPress m ++ [s]).

(** Modelled from the spec: the GUI container ([tgui::Gui] and its root
    container) lives outside the translated sources.  It is the sequence
    of the widgets it shows, each with its address; [add] appends a
    widget, [remove] erases the widget that has the given address. *)
Definition Gui : Type := list (WidgetPtr * MessageBox).

(** Modelled from the spec: [add(widget)]. *)
Definition add (p : WidgetPtr) (m : MessageBox) (gui : Gui) : Gui :=
  gui ++ [(p, m)].

(** Modelled from the spec: [remove(widget)]; a container that does not
    show the widget is left as it is. *)
Fixpoint remove (p : WidgetPtr) (gui : Gui) : Gui :=
  match gui with
  | [] => []
  | (q, m) :: rest => if decide (q = p) then rest else (q, m) :: remove p rest
  end.

(** The widget shown at an address, if any. *)
Fixpoint find (p : WidgetPtr) (gui : Gui) : option MessageBox :=
  match gui with
  | [] => None
  | (q, m) :: rest => if decide (q = p) then Some m else find p rest
  end.

(** Running one slot.  The parent of a widget shown by the container is
    the container itself. *)
Definition runSlot (s : ButtonSlot) (gui : Gui) : Gui :=
  match s with
  | RemoveFromParent msgBox => remove msgBox gui
  end.

(** The user presses the button [caption] of the message box at [p]:
    the box emits [onButtonPress], its slots run in connection order. *)
Definition pressButton (p : WidgetPtr) (caption : string) (gui : Gui) : Gui :=
  match find p gui with
  | Some m =>
      if bool_decide (caption ∈ buttons m)
      then foldl (fun g s => runSlot s g) gui (onButtonPress m)
      else gui
  | None => gui
  end.

End tgui.

(** ** Info: the about box

    [msgBoxAddr] is the address of the object that
    [tgui::MessageBox::create()] allocates. *)
Definition showInfo (msgBoxAddr : tgui.WidgetPtr) (gui : tgui.Gui) (menuItem : MenuItem)
  : tgui.Gui :=
  if isMenuItem menuItem "Info" "About" then
    let messageBox := tgui.MessageBox_create in
    let messageBox := tgui.setPosition "(&.size - size) / 2" messageBox in
    let messageBox :=
      tgui.setText "This program was developed by comrademashkov" messageBox in
    let messageBox := tgui.addButton "OK" messageBox in
    let messageBox := tgui.setButtonAlignment tgui.Center messageBox in
    let messageBox :=
      tgui.connectButtonPress (tgui.RemoveFromParent msgBoxAddr) messageBox in
    tgui.add msgBoxAddr messageBox gui
  else gui.

(** ** The file system and the requests made of the environment *)
Module io.

(** What the program asks of its environment, in order. *)
Inductive Event : Type :=
| EvSaveDialog (title defaultPathAndFile : string) (numOfFilterPatterns : nat)
               (singleFilterDescription : string)
| EvOpen (path : option string)
| EvWrite (path data : string)
| EvClose (path : string).

#[global] Instance Event_eq_dec : EqDecision Event.
Proof. solve_decision. Defined.

(** The regular files with their content, each under the one name that
    stands for the file; the other spellings of a path (a relative form, a
    link), each with the name it leads to; the names that cannot be opened
    for writing (a directory, a missing parent, a read-only place); the
    special files, which an open neither creates nor empties and which keep
    nothing of what is written to them; the names at which a write fails
    for want of room; and the requests made so far. *)
Record World : Type := mkWorld {
  files : gmap string string;
  links : gmap string string;
  unwritable : gset string;
  devices : gset string;
  full : gset string;
  trace : list Event
}.

#[global] Instance World_eq_dec : EqDecision World.
Proof. solve_decision. Defined.

(** The name of the file a path leads to. *)
Definition resolve (path : string) (w : World) : string :=
  default path (links w !! path).

(** What is read back at a path: the content of the file it leads to. *)
Definition content (path : string) (w : World) : option string :=
  files w !! resolve path w.

(** Computations that act on the world. *)
Definition IO (A : Type) : Type := World -> A * World.

Definition ret {A : Type} (v : A) : IO A := fun w => (v, w).

Definition bind {A B : Type} (c : IO A) (k : A -> IO B) : IO B :=
  fun w => let '(v, w') := c w in k v w'.

Definition emit (e : Event) : IO unit :=
  fun w => (tt, mkWorld (files w) (links w) (unwritable w) (devices w) (full w)
                        (trace w ++ [e])).

Definition setFile (path content : string) : IO unit :=
  fun w => (tt, mkWorld (<[resolve path w := content]> (files w)) (links w)
                        (unwritable w) (devices w) (full w) (trace w)).

Definition readFile (path : string) : IO string :=
  fun w => (default EmptyString (content path w), w).

(** Whether the named file can be opened for writing: no file has the
    empty name. *)
Definition writable (path : string) (w : World) : bool :=
  bool_decide (path ≠ EmptyString) && bool_decide (resolve path w ∉ unwritable w).

(** Whether the path leads to a regular file, or to none yet. *)
Definition regular (path : string) (w : World) : bool :=
  bool_decide (resolve path w ∉ devices w).

(** Whether a write at the path finds room. *)
Definition room (path : string) (w : World) : bool :=
  bool_decide (resolve path w ∉ full w).

(** Whether what is written at the path is kept. *)
Definition stores (path : string) (w : World) : bool :=
  regular path w && room path w.

Definition canOpen (path : string) : IO bool :=
  fun w => (writable path w, w).

Definition isRegular (path : string) : IO bool :=
  fun w => (regular path w, w).

Definition hasRoom (path : string) : IO bool :=
  fun w => (room path w, w).

End io.

Notation "'let!' x ':=' c 'in' k" := (io.bind c (fun x => k))
  (at level 10, x name, c at level 100, k at level 200).

(** ** [std::ofstream] *)
Module std.

(** The file the stream has open, if any, and whether the stream has
    failed ([fail()]: [failbit] or [badbit]). *)
Record ofstream : Type := mkOfstream { file : option string; failbit : bool }.

(** [std::ofstream ofs(file_path)], mode [out | trunc]: a regular file is
    created, or emptied when it exists.  A null [file_path] is handed to
    the open all the same; no file can be opened through it. *)
Definition ofstream_open (file_path : option string) : io.IO ofstream :=
  let! _ := io.emit (io.EvOpen file_path) in
  match file_path with
  | Some path =>
      let! ok := io.canOpen path in
      if ok
      then let! isRegular := io.isRegular path in
           let! _ := (if isRegular then io.setFile path EmptyString else io.ret tt) in
           io.ret (mkOfstream (Some path) false)
      else io.ret (mkOfstream None true)
  | None => io.ret (mkOfstream None true)
  end.

(** [ofs << data]: nothing is written through a failed stream.  Through a
    good one the data goes to the file, at the latest when the stream is
    closed: a write that finds no room fails and marks the stream, a
    special file keeps nothing, a regular file is extended. *)
Definition ofstream_put (data : string) (ofs : ofstream) : io.IO ofstream :=
  match file ofs, failbit ofs with
  | Some path, false =>
      let! _ := io.emit (io.EvWrite path data) in
      let! hasRoom := io.hasRoom path in
      if hasRoom
      then let! isRegular := io.isRegular path in
           if isRegular
           then let! old := io.readFile path in
                let! _ := io.setFile path (old +:+ data) in
                io.ret ofs
           else io.ret ofs
      else io.ret (mkOfstream (Some path) true)
  | _, _ => io.ret (mkOfstream (file ofs) true)
  end.

(** [ofs.close()]: closing a stream that has no file open sets the fail
    bit. *)
Definition ofstream_close (ofs : ofstream) : io.IO ofstream :=
  match file ofs with
  | Some path =>
      let! _ := io.emit (io.EvClose path) in
      io.ret (mkOfstream None (failbit ofs))
  | None => io.ret (mkOfstream None true)
  end.

End std.

(** ** File: save *)

Definition newline : string := String (Ascii.ascii_of_nat 10) EmptyString.

Definition saveDialogTitle : string := "Сохранить файл".
Definition saveDialogFilter : string := "Текстовые файлы (*.txt), *.txt".

Section SaveFile.

(** [tinyfd_saveFileDialog(aTitle, aDefaultPathAndFile, aNumOfFilterPatterns,
    aFilterPatterns, aSingleFilterDescription)]: the path the user
    confirms, or the null pointer when the user cancels. *)
Variable tinyfd_saveFileDialog :
  string -> string -> nat -> list string -> string -> option string.

Definition saveFile (filename : string) (menuItem : MenuItem) : io.IO unit :=
  if isMenuItem menuItem "File" "Save" then
    let! _ := io.emit (io.EvSaveDialog saveDialogTitle filename 0 saveDialogFilter) in
    let file_path :=
      tinyfd_saveFileDialog saveDialogTitle filename 0 [] saveDialogFilter in
    let! ofs := std.ofstream_open file_path in
    let! ofs := std.ofstream_put ("TEST" +:+ newline) ofs in
    let! _ := std.ofstream_close ofs in
    io.ret tt
  else io.ret tt.

End SaveFile.

(** ** The Command Router *)

(** The application state the handlers act on. *)
Record App : Type := mkApp {
  gui : tgui.Gui;
  plane : objects.Plane;
  world : io.World
}.

(** Modelled from the spec: the Command Router.  The code that connects the
    handlers to the menu bar is outside the translated sources; an
    activated menu item is handed to each of the four handlers in turn. *)
Definition commandRouter
    (tinyfd_saveFileDialog : string -> string -> nat -> list string -> string -> option string)
    (msgBoxAddr : tgui.WidgetPtr) (filename : string)
    (menuItem : MenuItem) (s : App) : App :=
  let gui' := showInfo msgBoxAddr (gui s) menuItem in
  let plane' := startProgram (plane s) menuItem in
  let plane' := finishProgram plane' menuItem in
  let world' := snd (saveFile tinyfd_saveFileDialog filename menuItem (world s)) in
  mkApp gui' plane' world'.

(** The four menu paths that have a handler. *)
Definition recognizedPaths : list (string * string) :=
  [("Info", "About"); ("Program", "Start"); ("Program", "Finish"); ("File", "Save")].

(** How many of the four guards a menu item passes. *)
Definition guardsPassed (menuItem : MenuItem) : nat :=
  length (filter (fun ca => isMenuItem menuItem ca.1 ca.2 = true) recognizedPaths).

(** ** Vocabulary of the statements *)

(** The side of the square a circle is drawn in, and the half of a length. *)
Definition visualSize (c : sf.CircleShape) : Float32.float :=
  Float32.mul (Float32.of_Z 2) (sf.radius c).

Definition half (v : Float32.float) : Float32.float :=
  Float32.div v (Float32.of_Z 2).

(** The two answers of the save dialog: the user cancels, the user confirms
    the path [F]. *)
Definition dialogCancelled : string -> string -> nat -> list string -> string -> option string :=
  fun _ _ _ _ _ => None.

Definition dialogConfirmed (F : string)
  : string -> string -> nat -> list string -> string -> option string :=
  fun _ _ _ _ _ => Some F.

(** The line [saveFile] writes. *)
Definition placeholder : string := "TEST" +:+ newline.

(** Whether a pointer coordinate [px], in whole pixels, is met again by
    the centre of the circle once the circle has reached its target. *)
Definition recentered (px : Z) : bool :=
  bool_decide (Float32.add (Float32.sub (Float32.of_Z px) (sf.x objects.CIRCLE_SIZE))
                           (Float32.of_Z 50)
               = Float32.of_Z px).

(** Sample states: a plane that was never started, a world without files,
    a world with one file under two spellings, a world where one path
    cannot be opened, and worlds where a write is not kept. *)
Definition parkedPlane : objects.Plane :=
  objects.mkPlane (sf.CircleShape_new (Float32.of_Z 0)) false
    (sf.mkVector2f (Float32.of_Z 3) (Float32.of_Z 4))
    (sf.mkVector2f (Float32.of_Z 7) (Float32.of_Z 8)).

Definition emptyWorld : io.World := io.mkWorld ∅ ∅ ∅ ∅ ∅ [].

(** The one file notes.txt, which the path ./notes.txt leads to as well. *)
Definition notesWorld : io.World :=
  io.mkWorld {[ "notes.txt" := "old" ]} {[ "./notes.txt" := "notes.txt" ]} ∅ ∅ ∅ [].

Definition readonlyPath : string := "/readonly/plan.txt".

Definition readonlyWorld : io.World := io.mkWorld ∅ ∅ {[ readonlyPath ]} ∅ ∅ [].

(** A world with the two special files of a Unix system: the one that
    swallows what is written, the one that accepts no write. *)
Definition devicesWorld : io.World :=
  io.mkWorld ∅ ∅ ∅ {[ "/dev/null"; "/dev/full" ]} {[ "/dev/full" ]} [].

(** A world whose disk has no room left for the file notes.txt. *)
Definition fullDiskWorld : io.World :=
  io.mkWorld {[ "notes.txt" := "old" ]} ∅ ∅ ∅ {[ "notes.txt" ]} [].


(** The widget addresses in use in a container. *)
Definition addresses (g : tgui.Gui) : list tgui.WidgetPtr := g.*1.

(** A pointer position in whole pixels, as a mouse-move event gives it. *)
Definition pixel (px py : Z) : sf.Vector2f :=
  sf.mkVector2f (Float32.of_Z px) (Float32.of_Z py).

(** Whether the single-precision subtraction of [moveCircle] at the pixel
    coordinate [px] is the subtraction of the integers. *)
Definition subtractsExactly (px : Z) : bool :=
  bool_decide (Float32.sub (Float32.of_Z px) (sf.x objects.CIRCLE_SIZE)
               = Float32.of_Z (px - 50)).

(** The [count] integers from [start] upwards. *)
Fixpoint zrange (start : Z) (count : nat) : list Z :=
  match count with
  | O => []
  | S k => start :: zrange (start + 1) k
  end.

(** The pixel coordinates from -16384 up to 16383. *)
Definition pixelRange : list Z := zrange (-16384) (Z.to_nat 32768).

(** A box as [showInfo] builds it at the address [q]: the single button OK
    and the one slot that removes the box at [q]. *)
Definition aboutBoxAt (q : tgui.WidgetPtr) (box : tgui.MessageBox) : Prop :=
  tgui.buttons box = ["OK"]
  /\ tgui.onButtonPress box = [tgui.RemoveFromParent q].

(** A container that shows about boxes only, each at an address of its own. *)
Definition aboutGui (g : tgui.Gui) : Prop :=
  NoDup (addresses g) /\ Forall (fun qb => aboutBoxAt qb.1 qb.2) g.

#[global] Instance aboutBoxAt_dec q box : Decision (aboutBoxAt q box).
Proof. unfold aboutBoxAt. apply _. Defined.

#[global] Instance aboutGui_dec g : Decision (aboutGui g).
Proof. unfold aboutGui. apply _. Defined.

(** The files after [saveFile] has opened the path [F]: a regular file is
    emptied by the open and then holds the placeholder line, or nothing
    when the write found no room; a special file leaves the files alone. *)
Definition savedFiles (F : string) (w : io.World) : gmap string string :=
  if io.regular F w
  then <[io.resolve F w := if io.room F w then placeholder else EmptyString]> (io.files w)
  else io.files w.



(** * Properties *)

(** ** The guard *)

Lemma isMenuItem_true_iff (menuItem : MenuItem) (category action : string) :
  isMenuItem menuItem category action = true <-> menuItem = [category; action].
Proof.
  unfold isMenuItem. split.
  - intros H.
    apply andb_prop in H as [H Haction]. apply andb_prop in H as [Hlen Hcategory].
    apply bool_decide_eq_true_1 in Haction, Hcategory.
    apply Nat.eqb_eq in Hlen.
    destruct menuItem as [|c0 [|a0 [|extra rest]]]; simpl in *; try discriminate.
    congruence.
  - intros ->. simpl. rewrite !bool_decide_eq_true_2; reflexivity.
Qed.

Lemma isMenuItem_false_iff (menuItem : MenuItem) (category action : string) :
  isMenuItem menuItem category action = false <-> menuItem <> [category; action].
Proof.
  rewrite <- isMenuItem_true_iff. destruct (isMenuItem _ _ _); split; congruence.
Qed.

Lemma isMenuItem_refl (category action : string) :
  isMenuItem [category; action] category action = true.
Proof. apply isMenuItem_true_iff. reflexivity. Qed.

Lemma isMenuItem_length (menuItem : MenuItem) (category action : string) :
  length menuItem <> 2%nat -> isMenuItem menuItem category action = false.
Proof.
  intros Hlen. apply isMenuItem_false_iff. intros ->. apply Hlen. reflexivity.
Qed.

Lemma isMenuItem_unrecognized (category action c a : string) :
  (category, action) ∉ recognizedPaths -> (c, a) ∈ recognizedPaths ->
  isMenuItem [category; action] c a = false.
Proof.
  intros Hout Hin. apply isMenuItem_false_iff. intros Heq.
  apply Hout. congruence.
Qed.

Lemma guardsPassed_le_1 (menuItem : MenuItem) : (guardsPassed menuItem <= 1)%nat.
Proof.
  unfold guardsPassed, recognizedPaths.
  destruct (isMenuItem menuItem "Info" "About") eqn:Hinfo;
    [apply isMenuItem_true_iff in Hinfo; subst; vm_compute; lia|].
  destruct (isMenuItem menuItem "Program" "Start") eqn:Hstart;
    [apply isMenuItem_true_iff in Hstart; subst; vm_compute; lia|].
  destruct (isMenuItem menuItem "Program" "Finish") eqn:Hfinish;
    [apply isMenuItem_true_iff in Hfinish; subst; vm_compute; lia|].
  rewrite !filter_cons; simpl.
  rewrite Hinfo, Hstart, Hfinish.
  repeat case_decide; try discriminate; simpl; lia.
Qed.

(** ** Each handler outside its own menu path *)

Lemma showInfo_other (msgBoxAddr : tgui.WidgetPtr) (g : tgui.Gui) (menuItem : MenuItem) :
  isMenuItem menuItem "Info" "About" = false -> showInfo msgBoxAddr g menuItem = g.
Proof. intros H. unfold showInfo. rewrite H. reflexivity. Qed.

Lemma startProgram_other (p : objects.Plane) (menuItem : MenuItem) :
  isMenuItem menuItem "Program" "Start" = false -> startProgram p menuItem = p.
Proof. intros H. unfold startProgram. rewrite H. reflexivity. Qed.

Lemma finishProgram_other (p : objects.Plane) (menuItem : MenuItem) :
  isMenuItem menuItem "Program" "Finish" = false -> finishProgram p menuItem = p.
Proof. intros H. unfold finishProgram. rewrite H. reflexivity. Qed.

Lemma saveFile_other dialog (filename : string) (menuItem : MenuItem) (w : io.World) :
  isMenuItem menuItem "File" "Save" = false ->
  saveFile dialog filename menuItem w = (tt, w).
Proof. intros H. unfold saveFile. rewrite H. reflexivity. Qed.

(** ** Program/Start and Program/Finish *)

Lemma of_Z_50 : Float32.of_Z 50 = S754_finite false 13107200 (-18).
Proof. reflexivity. Qed.

Lemma startProgram_eq (p : objects.Plane) :
  startProgram p ["Program"; "Start"] =
  objects.mkPlane
    (sf.mkCircleShape (Float32.of_Z 50) 30
       (sf.mkVector2f (Float32.of_Z 50) (Float32.of_Z 50)) sf.Color_Red)
    true (objects.position p)
    (sf.mkVector2f (Float32.of_Z 50) (Float32.of_Z 50)).
Proof. unfold startProgram. rewrite isMenuItem_refl. reflexivity. Qed.

Lemma finishProgram_eq (p : objects.Plane) :
  finishProgram p ["Program"; "Finish"] =
  objects.mkPlane (objects.primitive p) false (objects.position p)
                  (objects.targetPosition p).
Proof. unfold finishProgram. rewrite isMenuItem_refl. reflexivity. Qed.

(** C3. Whatever the plane was, Program/Start gives it a circle of radius 50,
    red, placed at (50,50), makes it visible and sets its target position
    to the same point (50,50). *)
Theorem startProgram_start (p : objects.Plane) :
  let p' := startProgram p ["Program"; "Start"] in
  let origin := sf.mkVector2f (Float32.of_Z 50) (Float32.of_Z 50) in
  objects.primitive p' = sf.setFillColor sf.Color_Red
                           (sf.setPosition origin (sf.CircleShape_new (Float32.of_Z 50)))
  /\ sf.radius (objects.primitive p') = Float32.of_Z 50
  /\ sf.fillColor (objects.primitive p') = sf.Color_Red
  /\ sf.position (objects.primitive p') = origin
  /\ objects.toDraw p' = true
  /\ objects.targetPosition p' = origin
  /\ objects.targetPosition p' = sf.position (objects.primitive p').
Proof. intros p' origin. subst p'. rewrite startProgram_eq. repeat split. Qed.

(** C4. Whatever the plane was, Program/Finish makes it invisible and leaves
    its target position and its shape as they were. *)
Theorem finishProgram_finish (p : objects.Plane) :
  let p' := finishProgram p ["Program"; "Finish"] in
  objects.toDraw p' = false
  /\ objects.targetPosition p' = objects.targetPosition p
  /\ objects.primitive p' = objects.primitive p.
Proof. intros p'. subst p'. rewrite finishProgram_eq. repeat split. Qed.

(** ** Following the pointer *)

Lemma moveCircle_eq (p : objects.Plane) (P : sf.Vector2f) :
  moveCircle p P =
  objects.mkPlane (objects.primitive p) (objects.toDraw p) (objects.position p)
                  (P - objects.CIRCLE_SIZE)%vec.
Proof. reflexivity. Qed.

(** C1. A pointer move to [P] sets the target position to [P - centerOffset],
    where the offset is the constant (50,50): half the visual size, 100, of
    the circle of radius 50 that Program/Start creates. *)
Theorem moveCircle_targetPosition (p : objects.Plane) (P : sf.Vector2f) :
  let centerOffset := objects.CIRCLE_SIZE in
  let circle := objects.primitive (startProgram p ["Program"; "Start"]) in
  objects.targetPosition (moveCircle p P) = (P - centerOffset)%vec
  /\ sf.x (objects.targetPosition (moveCircle p P)) = Float32.sub (sf.x P) (Float32.of_Z 50)
  /\ sf.y (objects.targetPosition (moveCircle p P)) = Float32.sub (sf.y P) (Float32.of_Z 50)
  /\ visualSize circle = Float32.of_Z 100
  /\ centerOffset = sf.mkVector2f (half (visualSize circle)) (half (visualSize circle))
  /\ centerOffset = sf.mkVector2f (Float32.of_Z 50) (Float32.of_Z 50).
Proof.
  intros centerOffset circle. subst centerOffset circle.
  rewrite startProgram_eq, moveCircle_eq. repeat split.
Qed.

(** C10. A pointer move sets the target position whatever the draw flag is,
    in particular after Program/Finish, and changes no other field. *)
Theorem moveCircle_unconditional (p : objects.Plane) (P : sf.Vector2f) :
  let hidden := finishProgram p ["Program"; "Finish"] in
  objects.targetPosition (moveCircle p P) = (P - objects.CIRCLE_SIZE)%vec
  /\ objects.toDraw (moveCircle p P) = objects.toDraw p
  /\ objects.primitive (moveCircle p P) = objects.primitive p
  /\ objects.position (moveCircle p P) = objects.position p
  /\ objects.toDraw hidden = false
  /\ objects.toDraw (moveCircle hidden P) = false
  /\ objects.targetPosition (moveCircle hidden P) = (P - objects.CIRCLE_SIZE)%vec.
Proof.
  intros hidden. subst hidden. rewrite finishProgram_eq, !moveCircle_eq.
  repeat split.
Qed.

(** ** Menu items without a handler *)

(** C5. A menu path that is none of the four recognized pairs, compared
    letter for letter, leaves every handler without effect: the container,
    the plane and the world (files and requests) are as before; and no menu
    item passes more than one of the four guards. *)
Theorem unrecognized_path_noop (category action : string)
    (Hpath : (category, action) ∉ recognizedPaths) :
  forall dialog (msgBoxAddr : tgui.WidgetPtr) (filename : string)
         (g : tgui.Gui) (p : objects.Plane) (w : io.World),
    showInfo msgBoxAddr g [category; action] = g
    /\ startProgram p [category; action] = p
    /\ finishProgram p [category; action] = p
    /\ saveFile dialog filename [category; action] w = (tt, w)
    /\ guardsPassed [category; action] = 0%nat
    /\ (forall menuItem : MenuItem, (guardsPassed menuItem <= 1)%nat).
Proof.
  intros dialog msgBoxAddr filename g p w.
  assert (Hguard : forall c a, (c, a) ∈ recognizedPaths ->
                               isMenuItem [category; action] c a = false)
    by (intros c a; apply isMenuItem_unrecognized; exact Hpath).
  assert (Hinfo := Hguard "Info" "About").
  assert (Hstart := Hguard "Program" "Start").
  assert (Hfinish := Hguard "Program" "Finish").
  assert (Hsave := Hguard "File" "Save").
  unfold recognizedPaths in Hinfo, Hstart, Hfinish, Hsave.
  rewrite !elem_of_cons in Hinfo, Hstart, Hfinish, Hsave.
  specialize (Hinfo ltac:(tauto)). specialize (Hstart ltac:(tauto)).
  specialize (Hfinish ltac:(tauto)). specialize (Hsave ltac:(tauto)).
  repeat split.
  - apply showInfo_other, Hinfo.
  - apply startProgram_other, Hstart.
  - apply finishProgram_other, Hfinish.
  - apply saveFile_other, Hsave.
  - unfold guardsPassed, recognizedPaths. rewrite !filter_cons; simpl.
    rewrite Hinfo, Hstart, Hfinish, Hsave.
    repeat case_decide; try discriminate. reflexivity.
  - apply guardsPassed_le_1.
Qed.

(** The path (program, start) differs from a recognized one by case only. *)
Lemma unrecognized_path_noop_witness :
  (("program", "start") ∉ recognizedPaths)
  /\ startProgram parkedPlane ["program"; "start"] = parkedPlane.
Proof.
  assert (Hpath : ("program", "start") ∉ recognizedPaths).
  { unfold recognizedPaths. rewrite !elem_of_cons, elem_of_nil.
    intros [H|[H|[H|[H|[]]]]]; discriminate H. }
  split; [exact Hpath|].
  apply (unrecognized_path_noop "program" "start" Hpath
           dialogCancelled 0%nat EmptyString [] parkedPlane emptyWorld).
Defined.

(** C9. A menu item whose length is not two leaves every handler without
    effect, also when it starts with the labels of a recognized path. *)
Theorem wrong_length_noop (menuItem : MenuItem) (Hlen : length menuItem <> 2%nat) :
  forall dialog (msgBoxAddr : tgui.WidgetPtr) (filename : string)
         (g : tgui.Gui) (p : objects.Plane) (w : io.World),
    showInfo msgBoxAddr g menuItem = g
    /\ startProgram p menuItem = p
    /\ finishProgram p menuItem = p
    /\ saveFile dialog filename menuItem w = (tt, w).
Proof.
  intros dialog msgBoxAddr filename g p w. repeat split.
  - apply showInfo_other, isMenuItem_length, Hlen.
  - apply startProgram_other, isMenuItem_length, Hlen.
  - apply finishProgram_other, isMenuItem_length, Hlen.
  - apply saveFile_other, isMenuItem_length, Hlen.
Qed.

Lemma wrong_length_noop_witness :
  length ["Program"; "Start"; "extra"] <> 2%nat
  /\ startProgram parkedPlane ["Program"; "Start"; "extra"] = parkedPlane.
Proof.
  assert (Hlen : length ["Program"; "Start"; "extra"] <> 2%nat)
    by (simpl; lia).
  split; [exact Hlen|].
  apply (wrong_length_noop ["Program"; "Start"; "extra"] Hlen
           (dialogConfirmed "out.txt") 0%nat EmptyString [] parkedPlane emptyWorld).
Defined.

(** ** The position of the plane *)

Lemma startProgram_position (p : objects.Plane) (menuItem : MenuItem) :
  objects.position (startProgram p menuItem) = objects.position p.
Proof. unfold startProgram. destruct (isMenuItem _ _ _); reflexivity. Qed.

Lemma finishProgram_position (p : objects.Plane) (menuItem : MenuItem) :
  objects.position (finishProgram p menuItem) = objects.position p.
Proof. unfold finishProgram. destruct (isMenuItem _ _ _); reflexivity. Qed.






(** ** Info/About *)



Lemma find_fresh (p : tgui.WidgetPtr) (g : tgui.Gui) :
  p ∉ addresses g -> tgui.find p g = None.
Proof.
  unfold addresses.
  induction g as [|[q m'] rest IH]; simpl; intros Hfresh; [reflexivity|].
  rewrite not_elem_of_cons in Hfresh. destruct Hfresh as [Hne Hrest].
  rewrite decide_False by congruence. apply IH, Hrest.
Qed.






(** ** File/Save *)

Lemma saveFile_run dialog (filename : string) (w : io.World) :
  saveFile dialog filename ["File"; "Save"] w =
  (let! _ := io.emit (io.EvSaveDialog saveDialogTitle filename 0 saveDialogFilter) in
   let! ofs := std.ofstream_open (dialog saveDialogTitle filename 0%nat [] saveDialogFilter) in
   let! ofs := std.ofstream_put placeholder ofs in
   let! _ := std.ofstream_close ofs in
   io.ret tt) w.
Proof. unfold saveFile. rewrite isMenuItem_refl. reflexivity. Qed.

(** Unfolding the stream operations down to records and conditionals. *)
Ltac run_streams :=
  unfold std.ofstream_open, std.ofstream_put, std.ofstream_close,
    io.bind, io.emit, io.canOpen, io.isRegular, io.hasRoom, io.setFile,
    io.readFile, io.ret, io.content, io.writable, io.regular, io.room,
    io.stores, io.resolve in *;
  cbv beta iota zeta;
  cbn [fst snd io.files io.links io.unwritable io.devices io.full io.trace
       std.file std.failbit] in *.

(** The world after the dialog was cancelled. *)
Lemma saveFile_null dialog (filename : string) (w : io.World) :
  dialog saveDialogTitle filename 0%nat [] saveDialogFilter = None ->
  snd (saveFile dialog filename ["File"; "Save"] w) =
  io.mkWorld (io.files w) (io.links w) (io.unwritable w) (io.devices w) (io.full w)
    (io.trace w ++ [io.EvSaveDialog saveDialogTitle filename 0 saveDialogFilter;
                    io.EvOpen None]).
Proof.
  intros Hdialog. rewrite saveFile_run, Hdialog. run_streams.
  rewrite <- !app_assoc. reflexivity.
Qed.

(** The world after the dialog was confirmed with the path [F]. *)
Lemma saveFile_answered dialog (filename : string) (w : io.World) (F : string) :
  dialog saveDialogTitle filename 0%nat [] saveDialogFilter = Some F ->
  snd (saveFile dialog filename ["File"; "Save"] w) =
  if io.writable F w
  then io.mkWorld (savedFiles F w) (io.links w) (io.unwritable w) (io.devices w)
         (io.full w)
         (io.trace w ++ [io.EvSaveDialog saveDialogTitle filename 0 saveDialogFilter;
                         io.EvOpen (Some F); io.EvWrite F placeholder; io.EvClose F])
  else io.mkWorld (io.files w) (io.links w) (io.unwritable w) (io.devices w)
         (io.full w)
         (io.trace w ++ [io.EvSaveDialog saveDialogTitle filename 0 saveDialogFilter;
                         io.EvOpen (Some F)]).
Proof.
  intros Hdialog. rewrite saveFile_run, Hdialog. unfold savedFiles. run_streams.
  destruct (bool_decide (F ≠ EmptyString)
            && bool_decide (default F (io.links w !! F) ∉ io.unwritable w));
    run_streams; [|rewrite <- !app_assoc; reflexivity].
  destruct (bool_decide (default F (io.links w !! F) ∉ io.devices w)) eqn:Hregular;
    run_streams;
    destruct (bool_decide (default F (io.links w !! F) ∉ io.full w)) eqn:Hroom;
    run_streams; rewrite ?Hregular; run_streams;
    rewrite <- ?app_assoc; try reflexivity.
  rewrite lookup_insert_eq, insert_insert_eq. reflexivity.
Qed.

Lemma saveFile_written dialog (filename : string) (w : io.World) (F : string) :
  dialog saveDialogTitle filename 0%nat [] saveDialogFilter = Some F ->
  io.writable F w = true -> io.stores F w = true ->
  snd (saveFile dialog filename ["File"; "Save"] w) =
  io.mkWorld (<[io.resolve F w := placeholder]> (io.files w)) (io.links w)
    (io.unwritable w) (io.devices w) (io.full w)
    (io.trace w ++ [io.EvSaveDialog saveDialogTitle filename 0 saveDialogFilter;
                    io.EvOpen (Some F); io.EvWrite F placeholder; io.EvClose F]).
Proof.
  intros Hdialog Hopen Hstores. rewrite (saveFile_answered _ _ _ _ Hdialog), Hopen.
  unfold savedFiles. unfold io.stores in Hstores.
  apply andb_prop in Hstores as [-> ->]. reflexivity.
Qed.

Lemma saveFile_refused dialog (filename : string) (w : io.World) (F : string) :
  dialog saveDialogTitle filename 0%nat [] saveDialogFilter = Some F ->
  io.writable F w = false ->
  snd (saveFile dialog filename ["File"; "Save"] w) =
  io.mkWorld (io.files w) (io.links w) (io.unwritable w) (io.devices w) (io.full w)
    (io.trace w ++ [io.EvSaveDialog saveDialogTitle filename 0 saveDialogFilter;
                    io.EvOpen (Some F)]).
Proof.
  intros Hdialog Hopen. rewrite (saveFile_answered _ _ _ _ Hdialog), Hopen.
  reflexivity.
Qed.

(** C2. When the save dialog is cancelled, [saveFile] still hands the null
    path to the open: after the dialog, the requests end with an open
    without a path.  No file changes. *)
Theorem saveFile_cancelled_opens (filename : string) (w : io.World) :
  snd (saveFile dialogCancelled filename ["File"; "Save"] w) =
  io.mkWorld (io.files w) (io.links w) (io.unwritable w) (io.devices w) (io.full w)
    (io.trace w ++ [io.EvSaveDialog saveDialogTitle filename 0 saveDialogFilter;
                    io.EvOpen None]).
Proof. apply saveFile_null. reflexivity. Qed.

(** C6, as amended. When the save dialog is confirmed with a path [F] that
    can be opened for writing and leads to a regular file with room for the
    line, [saveFile] leaves there a file that holds exactly the placeholder
    line, whatever was there before; the files that [F] does not lead to are
    as they were. *)
Theorem saveFile_confirmed dialog (filename : string) (w : io.World) (F : string)
    (Hdialog : dialog saveDialogTitle filename 0%nat [] saveDialogFilter = Some F)
    (Hopen : io.writable F w = true)
    (Hstores : io.stores F w = true) :
  let w' := snd (saveFile dialog filename ["File"; "Save"] w) in
  io.content F w' = Some placeholder
  /\ (forall G : string,
        io.resolve G w <> io.resolve F w -> io.content G w' = io.content G w)
  /\ io.files w' = <[io.resolve F w := placeholder]> (io.files w)
  /\ io.trace w' =
     io.trace w ++ [io.EvSaveDialog saveDialogTitle filename 0 saveDialogFilter;
                    io.EvOpen (Some F); io.EvWrite F placeholder; io.EvClose F].
Proof.
  intros w'. subst w'. rewrite (saveFile_written _ _ _ _ Hdialog Hopen Hstores).
  unfold io.content, io.resolve. cbn [io.files io.links io.trace].
  split; [apply lookup_insert_eq|].
  split; [intros G HG; apply lookup_insert_ne; congruence|].
  split; reflexivity.
Qed.

(** The user picks the existing file notes.txt under the spelling
    ./notes.txt: the file is overwritten, under either spelling. *)
Lemma saveFile_confirmed_witness :
  dialogConfirmed "./notes.txt" saveDialogTitle "plan.txt" 0%nat [] saveDialogFilter
  = Some "./notes.txt"
  /\ io.writable "./notes.txt" notesWorld = true
  /\ io.stores "./notes.txt" notesWorld = true
  /\ io.content "notes.txt" notesWorld = Some "old"
  /\ io.content "./notes.txt"
       (snd (saveFile (dialogConfirmed "./notes.txt") "plan.txt"
               ["File"; "Save"] notesWorld))
     = Some placeholder.
Proof.
  assert (Hdialog :
            dialogConfirmed "./notes.txt" saveDialogTitle "plan.txt" 0%nat []
              saveDialogFilter = Some "./notes.txt") by reflexivity.
  assert (Hopen : io.writable "./notes.txt" notesWorld = true)
    by (vm_compute; reflexivity).
  assert (Hstores : io.stores "./notes.txt" notesWorld = true)
    by (vm_compute; reflexivity).
  split; [exact Hdialog|]. split; [exact Hopen|]. split; [exact Hstores|].
  split; [vm_compute; reflexivity|].
  apply (saveFile_confirmed (dialogConfirmed "./notes.txt") "plan.txt" notesWorld
           "./notes.txt" Hdialog Hopen Hstores).
Defined.

(** C6, as stated, fails where the confirmed path cannot be opened: the
    stream fails, nothing is written and no file appears at the path. *)
Lemma saveFile_confirmed_unwritable :
  dialogConfirmed readonlyPath saveDialogTitle "plan.txt" 0%nat [] saveDialogFilter
  = Some readonlyPath
  /\ io.content readonlyPath
       (snd (saveFile (dialogConfirmed readonlyPath) "plan.txt"
               ["File"; "Save"] readonlyWorld))
     <> Some placeholder
  /\ io.content readonlyPath
       (snd (saveFile (dialogConfirmed readonlyPath) "plan.txt"
               ["File"; "Save"] readonlyWorld))
     = None.
Proof.
  split; [reflexivity|].
  rewrite (saveFile_refused (dialogConfirmed readonlyPath) "plan.txt" readonlyWorld
             readonlyPath) by (vm_compute; reflexivity).
  assert (Hnone : io.content readonlyPath
                    (io.mkWorld (io.files readonlyWorld) (io.links readonlyWorld)
                       (io.unwritable readonlyWorld) (io.devices readonlyWorld)
                       (io.full readonlyWorld)
                       (io.trace readonlyWorld ++
                        [io.EvSaveDialog saveDialogTitle "plan.txt" 0 saveDialogFilter;
                         io.EvOpen (Some readonlyPath)])) = None)
    by (vm_compute; reflexivity).
  rewrite Hnone. split; [discriminate | reflexivity].
Qed.

(** It fails as well where the open succeeds and the write does not: at the
    special file that accepts no write, at the one that swallows every
    write, and on a disk without room, where the open has emptied the file
    and the line is lost. *)
Lemma saveFile_confirmed_not_stored :
  io.writable "/dev/full" devicesWorld = true
  /\ io.content "/dev/full"
       (snd (saveFile (dialogConfirmed "/dev/full") "plan.txt"
               ["File"; "Save"] devicesWorld)) = None
  /\ io.writable "/dev/null" devicesWorld = true
  /\ io.content "/dev/null"
       (snd (saveFile (dialogConfirmed "/dev/null") "plan.txt"
               ["File"; "Save"] devicesWorld)) = None
  /\ io.writable "notes.txt" fullDiskWorld = true
  /\ io.content "notes.txt"
       (snd (saveFile (dialogConfirmed "notes.txt") "plan.txt"
               ["File"; "Save"] fullDiskWorld)) = Some EmptyString.
Proof. repeat split; vm_compute; reflexivity. Qed.

(** ** Dispatch through the four handlers *)

Lemma commandRouter_unrecognized dialog (msgBoxAddr : tgui.WidgetPtr)
    (filename category action : string) (s : App) :
  (category, action) ∉ recognizedPaths ->
  commandRouter dialog msgBoxAddr filename [category; action] s = s.
Proof.
  intros Hpath. unfold commandRouter.
  assert (Hguard : forall c a, (c, a) ∈ recognizedPaths ->
                               isMenuItem [category; action] c a = false)
    by (intros c a; apply isMenuItem_unrecognized; exact Hpath).
  unfold recognizedPaths in Hguard.
  rewrite showInfo_other, startProgram_other, finishProgram_other, saveFile_other
    by (apply Hguard; rewrite !elem_of_cons; tauto).
  destruct s; reflexivity.
Qed.

Lemma commandRouter_wrong_length dialog (msgBoxAddr : tgui.WidgetPtr)
    (filename : string) (menuItem : MenuItem) (s : App) :
  length menuItem <> 2%nat ->
  commandRouter dialog msgBoxAddr filename menuItem s = s.
Proof.
  intros Hlen. unfold commandRouter.
  rewrite showInfo_other, startProgram_other, finishProgram_other, saveFile_other
    by (apply isMenuItem_length, Hlen).
  destruct s; reflexivity.
Qed.

Lemma commandRouter_start dialog (msgBoxAddr : tgui.WidgetPtr) (filename : string)
    (s : App) :
  commandRouter dialog msgBoxAddr filename ["Program"; "Start"] s =
  mkApp (gui s) (startProgram (plane s) ["Program"; "Start"]) (world s).
Proof.
  unfold commandRouter.
  rewrite showInfo_other, finishProgram_other, saveFile_other by reflexivity.
  reflexivity.
Qed.

Lemma commandRouter_finish dialog (msgBoxAddr : tgui.WidgetPtr) (filename : string)
    (s : App) :
  commandRouter dialog msgBoxAddr filename ["Program"; "Finish"] s =
  mkApp (gui s) (finishProgram (plane s) ["Program"; "Finish"]) (world s).
Proof.
  unfold commandRouter.
  rewrite showInfo_other, startProgram_other, saveFile_other by reflexivity.
  reflexivity.
Qed.

Lemma commandRouter_about dialog (msgBoxAddr : tgui.WidgetPtr) (filename : string)
    (s : App) :
  commandRouter dialog msgBoxAddr filename ["Info"; "About"] s =
  mkApp (showInfo msgBoxAddr (gui s) ["Info"; "About"]) (plane s) (world s).
Proof.
  unfold commandRouter.
  rewrite startProgram_other, finishProgram_other, saveFile_other by reflexivity.
  reflexivity.
Qed.

Lemma commandRouter_save dialog (msgBoxAddr : tgui.WidgetPtr) (filename : string)
    (s : App) :
  commandRouter dialog msgBoxAddr filename ["File"; "Save"] s =
  mkApp (gui s) (plane s) (snd (saveFile dialog filename ["File"; "Save"] (world s))).
Proof.
  unfold commandRouter.
  rewrite showInfo_other, startProgram_other, finishProgram_other by reflexivity.
  reflexivity.
Qed.

(** ** The circle under the pointer *)

Lemma recentered_checked :
  forallb recentered (map Z.of_nat (seq 0 4096)) = true.
Proof. vm_compute. reflexivity. Qed.

(** X7. For a pointer at a whole number of pixels below 4096 the subtraction
    is exact: once the circle sits at its target, its centre is the pointer. *)
Lemma moveCircle_recenters (p : objects.Plane) (px py : nat) :
  (px < 4096)%nat -> (py < 4096)%nat ->
  let P := sf.mkVector2f (Float32.of_Z (Z.of_nat px)) (Float32.of_Z (Z.of_nat py)) in
  let radius := sf.mkVector2f (Float32.of_Z 50) (Float32.of_Z 50) in
  (objects.targetPosition (moveCircle p P) + radius)%vec = P.
Proof.
  intros Hx Hy P radius. subst P radius.
  assert (Hall : forall n : nat, (n < 4096)%nat -> recentered (Z.of_nat n) = true).
  { intros n Hn.
    apply (proj1 (forallb_forall recentered _) recentered_checked).
    apply in_map, in_seq. lia. }
  rewrite moveCircle_eq. unfold sf.Vector2f_add, sf.Vector2f_sub. cbn [sf.x sf.y objects.targetPosition].
  pose proof (Hall px Hx) as Hpx. pose proof (Hall py Hy) as Hpy.
  apply bool_decide_eq_true_1 in Hpx, Hpy. cbn [sf.x objects.CIRCLE_SIZE] in Hpx, Hpy.
  cbn [sf.x sf.y objects.CIRCLE_SIZE].
  rewrite Hpx, Hpy. reflexivity.
Qed.

(** ** Each handler and the other menu paths *)

(** X1. A handler acts on its own menu path only: on every other menu item,
    the recognized paths of the other handlers included, it changes
    nothing. *)
Theorem handler_only_own_path dialog (msgBoxAddr : tgui.WidgetPtr) (filename : string)
    (g : tgui.Gui) (p : objects.Plane) (w : io.World) (menuItem : MenuItem) :
  (menuItem <> ["Info"; "About"] -> showInfo msgBoxAddr g menuItem = g)
  /\ (menuItem <> ["Program"; "Start"] -> startProgram p menuItem = p)
  /\ (menuItem <> ["Program"; "Finish"] -> finishProgram p menuItem = p)
  /\ (menuItem <> ["File"; "Save"] -> saveFile dialog filename menuItem w = (tt, w)).
Proof.
  repeat split; intros Hother.
  - apply showInfo_other, isMenuItem_false_iff, Hother.
  - apply startProgram_other, isMenuItem_false_iff, Hother.
  - apply finishProgram_other, isMenuItem_false_iff, Hother.
  - apply saveFile_other, isMenuItem_false_iff, Hother.
Qed.

(** Program/Finish is recognized, and [startProgram] leaves it alone. *)
Lemma handler_only_own_path_witness :
  ["Program"; "Finish"] <> ["Program"; "Start"]
  /\ startProgram parkedPlane ["Program"; "Finish"] = parkedPlane.
Proof.
  assert (Hother : ["Program"; "Finish"] <> ["Program"; "Start"]) by discriminate.
  split; [exact Hother|].
  exact (proj1 (proj2 (handler_only_own_path dialogCancelled 0%nat EmptyString []
                         parkedPlane emptyWorld ["Program"; "Finish"])) Hother).
Defined.

(** ** How the plane handlers compose *)

(** X2. On one and the same menu item the two plane handlers commute: the
    plane does not depend on which of them is run first. *)
Theorem plane_handlers_commute (p : objects.Plane) (menuItem : MenuItem) :
  startProgram (finishProgram p menuItem) menuItem
  = finishProgram (startProgram p menuItem) menuItem.
Proof.
  destruct (isMenuItem menuItem "Program" "Start") eqn:Hstart;
    destruct (isMenuItem menuItem "Program" "Finish") eqn:Hfinish.
  - apply isMenuItem_true_iff in Hstart, Hfinish. congruence.
  - rewrite !(finishProgram_other _ _ Hfinish). reflexivity.
  - rewrite !(startProgram_other _ _ Hstart). reflexivity.
  - rewrite !(startProgram_other _ _ Hstart). reflexivity.
Qed.

(** X3. Program/Start forgets what came before it: after a finish, a pointer
    move or an earlier start, on any menu item and pointer, it gives the
    plane it gives without them. *)
Theorem startProgram_forgets (p : objects.Plane) (menuItem : MenuItem) (P : sf.Vector2f) :
  startProgram (finishProgram p menuItem) ["Program"; "Start"]
  = startProgram p ["Program"; "Start"]
  /\ startProgram (moveCircle p P) ["Program"; "Start"]
     = startProgram p ["Program"; "Start"]
  /\ startProgram (startProgram p menuItem) ["Program"; "Start"]
     = startProgram p ["Program"; "Start"].
Proof.
  rewrite !startProgram_eq.
  rewrite finishProgram_position, startProgram_position.
  repeat split.
Qed.

(** X4. Both plane handlers are idempotent: handling the same menu item a
    second time changes nothing more. *)
Theorem plane_handlers_idempotent (p : objects.Plane) (menuItem : MenuItem) :
  startProgram (startProgram p menuItem) menuItem = startProgram p menuItem
  /\ finishProgram (finishProgram p menuItem) menuItem = finishProgram p menuItem.
Proof.
  split.
  - unfold startProgram. destruct (isMenuItem menuItem "Program" "Start"); reflexivity.
  - unfold finishProgram. destruct (isMenuItem menuItem "Program" "Finish"); reflexivity.
Qed.

(** X5. Of two pointer moves the later one decides the target, and hiding
    the plane does not disturb the tracking: [moveCircle] commutes with
    [finishProgram] on every menu item. *)
Theorem moveCircle_composes (p : objects.Plane) (P1 P2 : sf.Vector2f)
    (menuItem : MenuItem) :
  moveCircle (moveCircle p P1) P2 = moveCircle p P2
  /\ moveCircle (finishProgram p menuItem) P2 = finishProgram (moveCircle p P2) menuItem.
Proof.
  split; [reflexivity|].
  unfold finishProgram. destruct (isMenuItem menuItem "Program" "Finish"); reflexivity.
Qed.

(** ** Pointer positions in whole pixels *)

Lemma zrange_In (start : Z) (count : nat) (z : Z) :
  (start <= z < start + Z.of_nat count)%Z -> In z (zrange start count).
Proof.
  revert start. induction count as [|k IH]; intros start Hz; [lia|].
  simpl. destruct (Z.eq_dec start z) as [Heq|Hne]; [left; exact Heq|].
  right. apply IH. lia.
Qed.

Lemma subtractsExactly_checked : forallb subtractsExactly pixelRange = true.
Proof. vm_compute. reflexivity. Qed.

Lemma subtractsExactly_range (px : Z) :
  (-16384 <= px < 16384)%Z ->
  Float32.sub (Float32.of_Z px) (Float32.of_Z 50) = Float32.of_Z (px - 50).
Proof.
  intros Hpx.
  assert (Hin : In px pixelRange)
    by (unfold pixelRange; apply zrange_In; lia).
  pose proof (proj1 (forallb_forall subtractsExactly pixelRange)
                subtractsExactly_checked px Hin) as Hexact.
  apply bool_decide_eq_true_1 in Hexact. exact Hexact.
Qed.

(** X6. For a pointer at whole pixels between -16384 and 16383 the
    single-precision subtraction of [moveCircle] loses nothing: the target
    is the pixel 50 to the left of and 50 above the pointer. *)
Theorem moveCircle_pixel_exact (p : objects.Plane) (px py : Z)
    (Hx : (-16384 <= px < 16384)%Z) (Hy : (-16384 <= py < 16384)%Z) :
  objects.targetPosition (moveCircle p (pixel px py)) = pixel (px - 50) (py - 50).
Proof.
  rewrite moveCircle_eq. unfold pixel, sf.Vector2f_sub.
  cbn [objects.targetPosition sf.x sf.y objects.CIRCLE_SIZE].
  rewrite (subtractsExactly_range px Hx), (subtractsExactly_range py Hy).
  reflexivity.
Qed.

(** A pointer left of and above the circle's offset: the target is negative. *)
Lemma moveCircle_pixel_exact_witness :
  (-16384 <= 20 < 16384)%Z /\ (-16384 <= 1080 < 16384)%Z
  /\ objects.targetPosition (moveCircle parkedPlane (pixel 20 1080))
     = pixel (-30) 1030.
Proof.
  assert (Hx : (-16384 <= 20 < 16384)%Z) by lia.
  assert (Hy : (-16384 <= 1080 < 16384)%Z) by lia.
  split; [exact Hx|]. split; [exact Hy|].
  exact (moveCircle_pixel_exact parkedPlane 20 1080 Hx Hy).
Defined.

Lemma moveCircle_recenters_witness :
  (640 < 4096)%nat /\ (480 < 4096)%nat
  /\ (objects.targetPosition
        (moveCircle parkedPlane
           (sf.mkVector2f (Float32.of_Z (Z.of_nat 640)) (Float32.of_Z (Z.of_nat 480))))
      + sf.mkVector2f (Float32.of_Z 50) (Float32.of_Z 50))%vec
     = sf.mkVector2f (Float32.of_Z (Z.of_nat 640)) (Float32.of_Z (Z.of_nat 480)).
Proof.
  assert (Hx : (640 < 4096)%nat) by lia.
  assert (Hy : (480 < 4096)%nat) by lia.
  split; [exact Hx|]. split; [exact Hy|].
  exact (moveCircle_recenters parkedPlane 640 480 Hx Hy).
Defined.

(** ** File/Save: what is written, and where *)

(** X8. Whatever the menu item, the answer of the dialog and the state of
    the file system, [saveFile] leaves alone every file but the one the
    returned path leads to, under whatever spelling; the file named by its
    [filename] argument included, unless the dialog returned a path to it. *)
Theorem saveFile_other_files dialog (filename : string) (menuItem : MenuItem)
    (w : io.World) (G : string)
    (Hother : forall F : string,
        dialog saveDialogTitle filename 0%nat [] saveDialogFilter = Some F ->
        io.resolve G w <> io.resolve F w) :
  io.content G (snd (saveFile dialog filename menuItem w)) = io.content G w.
Proof.
  destruct (isMenuItem menuItem "File" "Save") eqn:Hguard;
    [|rewrite (saveFile_other _ _ _ _ Hguard); reflexivity].
  apply isMenuItem_true_iff in Hguard. subst menuItem.
  destruct (dialog saveDialogTitle filename 0%nat [] saveDialogFilter)
    as [F|] eqn:Hdialog; [|rewrite (saveFile_null _ _ _ Hdialog); reflexivity].
  specialize (Hother F eq_refl).
  rewrite (saveFile_answered _ _ _ _ Hdialog).
  destruct (io.writable F w); [|reflexivity].
  unfold savedFiles, io.content. cbn [io.files].
  change (io.resolve G (io.mkWorld _ (io.links w) _ _ _ _)) with (io.resolve G w).
  destruct (io.regular F w); [|reflexivity].
  cbn [io.files]. apply lookup_insert_ne. congruence.
Qed.

(** The dialog is opened on plan.txt, the user picks ./notes.txt: plan.txt,
    absent before, is absent after. *)
Lemma saveFile_other_files_witness :
  (forall F : string,
      dialogConfirmed "./notes.txt" saveDialogTitle "plan.txt" 0%nat [] saveDialogFilter
      = Some F ->
      io.resolve "plan.txt" notesWorld <> io.resolve F notesWorld)
  /\ io.content "plan.txt"
       (snd (saveFile (dialogConfirmed "./notes.txt") "plan.txt"
               ["File"; "Save"] notesWorld))
     = io.content "plan.txt" notesWorld.
Proof.
  assert (Hother : forall F : string,
             dialogConfirmed "./notes.txt" saveDialogTitle "plan.txt" 0%nat []
               saveDialogFilter = Some F ->
             io.resolve "plan.txt" notesWorld <> io.resolve F notesWorld).
  { intros F HF. injection HF as <-. vm_compute. intros H. discriminate H. }
  split; [exact Hother|].
  exact (saveFile_other_files (dialogConfirmed "./notes.txt") "plan.txt"
           ["File"; "Save"] notesWorld "plan.txt" Hother).
Defined.

(** Two spellings of one file are one file: the user picks ./notes.txt and
    what is read back at notes.txt is the line. *)
Lemma saveFile_other_spelling :
  io.resolve "./notes.txt" notesWorld = io.resolve "notes.txt" notesWorld
  /\ io.content "notes.txt" notesWorld = Some "old"
  /\ io.content "notes.txt"
       (snd (saveFile (dialogConfirmed "./notes.txt") "plan.txt"
               ["File"; "Save"] notesWorld))
     = Some placeholder.
Proof. repeat split; vm_compute; reflexivity. Qed.

(** X9. When the path the user confirmed cannot be opened, [saveFile] fails
    silently: no file is created or changed, and after the open nothing more
    is asked of the environment, neither a write nor a close. *)
Theorem saveFile_open_failure_silent dialog (filename : string) (w : io.World)
    (F : string)
    (Hdialog : dialog saveDialogTitle filename 0%nat [] saveDialogFilter = Some F)
    (Hopen : io.writable F w = false) :
  let w' := snd (saveFile dialog filename ["File"; "Save"] w) in
  io.files w' = io.files w
  /\ io.trace w' =
     io.trace w ++ [io.EvSaveDialog saveDialogTitle filename 0 saveDialogFilter;
                    io.EvOpen (Some F)]
  /\ saveFile dialog filename ["File"; "Save"] w = (tt, w').
Proof.
  intros w'. subst w'. rewrite (saveFile_refused _ _ _ _ Hdialog Hopen).
  repeat split.
  destruct (saveFile dialog filename ["File"; "Save"] w) as [[] w1] eqn:Hrun.
  rewrite <- (saveFile_refused _ _ _ _ Hdialog Hopen), Hrun. reflexivity.
Qed.

Lemma saveFile_open_failure_silent_witness :
  dialogConfirmed readonlyPath saveDialogTitle "plan.txt" 0%nat [] saveDialogFilter
  = Some readonlyPath
  /\ io.writable readonlyPath readonlyWorld = false
  /\ io.files (snd (saveFile (dialogConfirmed readonlyPath) "plan.txt"
                             ["File"; "Save"] readonlyWorld))
     = io.files readonlyWorld.
Proof.
  assert (Hdialog :
            dialogConfirmed readonlyPath saveDialogTitle "plan.txt" 0%nat []
              saveDialogFilter = Some readonlyPath) by reflexivity.
  assert (Hopen : io.writable readonlyPath readonlyWorld = false)
    by (vm_compute; reflexivity).
  split; [exact Hdialog|]. split; [exact Hopen|].
  exact (proj1 (saveFile_open_failure_silent (dialogConfirmed readonlyPath) "plan.txt"
                  readonlyWorld readonlyPath Hdialog Hopen)).
Defined.

(** X10. Saving twice to the same path does not append.  Whatever the file
    system makes of the path (a refused open, a special file, a write
    without room), the files after the second save are those after the
    first; and where the path can be opened and keeps what is written, the
    file holds the placeholder line once. *)
Theorem saveFile_twice dialog1 dialog2 (filename1 filename2 : string)
    (w : io.World) (F : string)
    (Hfirst : dialog1 saveDialogTitle filename1 0%nat [] saveDialogFilter = Some F)
    (Hsecond : dialog2 saveDialogTitle filename2 0%nat [] saveDialogFilter = Some F) :
  let w1 := snd (saveFile dialog1 filename1 ["File"; "Save"] w) in
  let w2 := snd (saveFile dialog2 filename2 ["File"; "Save"] w1) in
  io.files w2 = io.files w1
  /\ (io.writable F w = true -> io.stores F w = true ->
      io.content F w2 = Some placeholder).
Proof.
  intros w1 w2. subst w2 w1.
  rewrite (saveFile_answered _ _ _ _ Hsecond), (saveFile_answered _ _ _ _ Hfirst).
  unfold savedFiles, io.content, io.stores, io.writable, io.regular, io.room,
    io.resolve.
  destruct (bool_decide (F ≠ EmptyString)
            && bool_decide (default F (io.links w !! F) ∉ io.unwritable w)) eqn:Hopen;
    cbn [io.files io.links io.unwritable io.devices io.full io.trace];
    rewrite Hopen; cbn [io.files io.links];
    [|split; [reflexivity | discriminate]].
  destruct (bool_decide (default F (io.links w !! F) ∉ io.devices w));
    [|split; [reflexivity | discriminate]].
  destruct (bool_decide (default F (io.links w !! F) ∉ io.full w));
    rewrite insert_insert_eq;
    (split; [reflexivity | try discriminate]).
  intros _ _. apply lookup_insert_eq.
Qed.

Lemma saveFile_twice_witness :
  dialogConfirmed "./notes.txt" saveDialogTitle "plan.txt" 0%nat [] saveDialogFilter
  = Some "./notes.txt"
  /\ io.writable "./notes.txt" notesWorld = true
  /\ io.stores "./notes.txt" notesWorld = true
  /\ io.content "./notes.txt"
       (snd (saveFile (dialogConfirmed "./notes.txt") "plan.txt" ["File"; "Save"]
               (snd (saveFile (dialogConfirmed "./notes.txt") "plan.txt"
                       ["File"; "Save"] notesWorld))))
     = Some placeholder.
Proof.
  assert (Hdialog :
            dialogConfirmed "./notes.txt" saveDialogTitle "plan.txt" 0%nat []
              saveDialogFilter = Some "./notes.txt") by reflexivity.
  assert (Hopen : io.writable "./notes.txt" notesWorld = true)
    by (vm_compute; reflexivity).
  assert (Hstores : io.stores "./notes.txt" notesWorld = true)
    by (vm_compute; reflexivity).
  split; [exact Hdialog|]. split; [exact Hopen|]. split; [exact Hstores|].
  exact (proj2 (saveFile_twice (dialogConfirmed "./notes.txt")
                  (dialogConfirmed "./notes.txt") "plan.txt" "plan.txt" notesWorld
                  "./notes.txt" Hdialog Hdialog) Hopen Hstores).
Defined.

(** ** Several about boxes *)

Lemma addresses_add (p : tgui.WidgetPtr) (m : tgui.MessageBox) (g : tgui.Gui) :
  addresses (tgui.add p m g) = addresses g ++ [p].
Proof. unfold addresses, tgui.add. rewrite fmap_app. reflexivity. Qed.

Lemma showInfo_aboutGui (msgBoxAddr : tgui.WidgetPtr) (g : tgui.Gui) (menuItem : MenuItem) :
  aboutGui g -> msgBoxAddr ∉ addresses g -> aboutGui (showInfo msgBoxAddr g menuItem).
Proof.
  intros [Hnodup Hboxes] Hfresh. unfold showInfo.
  destruct (isMenuItem menuItem "Info" "About"); [|split; assumption].
  split.
  - rewrite addresses_add. apply NoDup_app. split; [exact Hnodup|].
    split; [|apply NoDup_singleton].
    intros q Hq Hq'. apply list_elem_of_singleton in Hq'. subst q. exact (Hfresh Hq).
  - unfold tgui.add. apply Forall_app. split; [exact Hboxes|].
    apply Forall_singleton. split; reflexivity.
Qed.

Lemma remove_fresh (p : tgui.WidgetPtr) (g : tgui.Gui) :
  p ∉ addresses g -> tgui.remove p g = g.
Proof.
  unfold addresses.
  induction g as [|[q m] rest IH]; simpl; intros Hfresh; [reflexivity|].
  rewrite not_elem_of_cons in Hfresh. destruct Hfresh as [Hne Hrest].
  rewrite decide_False by congruence. rewrite IH by exact Hrest. reflexivity.
Qed.

Lemma find_remove_ne (p q : tgui.WidgetPtr) (g : tgui.Gui) :
  q <> p -> tgui.find q (tgui.remove p g) = tgui.find q g.
Proof.
  intros Hne. induction g as [|[r m] rest IH]; simpl; [reflexivity|].
  destruct (decide (r = p)) as [->|Hrp].
  - rewrite decide_False by congruence. reflexivity.
  - simpl. destruct (decide (r = q)); [reflexivity | exact IH].
Qed.

Lemma addresses_remove (p q : tgui.WidgetPtr) (g : tgui.Gui) :
  q ∈ addresses (tgui.remove p g) -> q ∈ addresses g.
Proof.
  unfold addresses.
  induction g as [|[r m] rest IH]; simpl; [intros H; exact H|].
  destruct (decide (r = p)) as [->|Hrp]; simpl.
  - intros H. apply elem_of_cons. right. exact H.
  - rewrite !elem_of_cons. intros [H|H]; [left; exact H | right; apply IH, H].
Qed.

Lemma remove_NoDup (p : tgui.WidgetPtr) (g : tgui.Gui) :
  NoDup (addresses g) ->
  NoDup (addresses (tgui.remove p g)) /\ p ∉ addresses (tgui.remove p g).
Proof.
  unfold addresses.
  induction g as [|[r m] rest IH]; simpl; intros Hnodup.
  - split; [constructor | apply not_elem_of_nil].
  - apply NoDup_cons in Hnodup as [Hr Hrest].
    destruct (decide (r = p)) as [->|Hrp]; simpl.
    + split; assumption.
    + destruct (IH Hrest) as [IH1 IH2]. split.
      * apply NoDup_cons. split; [|exact IH1].
        intros Hin. apply Hr. exact (addresses_remove p r rest Hin).
      * rewrite not_elem_of_cons. split; [congruence | exact IH2].
Qed.

Lemma remove_boxes (p : tgui.WidgetPtr) (g : tgui.Gui) :
  Forall (fun qb => aboutBoxAt qb.1 qb.2) g ->
  Forall (fun qb => aboutBoxAt qb.1 qb.2) (tgui.remove p g).
Proof.
  induction g as [|[r m] rest IH]; simpl; intros Hboxes; [constructor|].
  apply Forall_cons in Hboxes as [Hhead Hrest].
  destruct (decide (r = p)); [exact Hrest|].
  apply Forall_cons. split; [exact Hhead | apply IH, Hrest].
Qed.

Lemma find_aboutBox (p : tgui.WidgetPtr) (g : tgui.Gui) :
  Forall (fun qb => aboutBoxAt qb.1 qb.2) g -> p ∈ addresses g ->
  exists box, tgui.find p g = Some box /\ aboutBoxAt p box.
Proof.
  unfold addresses.
  induction g as [|[r m] rest IH]; simpl; intros Hboxes Hin.
  - apply elem_of_nil in Hin. destruct Hin.
  - apply Forall_cons in Hboxes as [Hhead Hrest].
    destruct (decide (r = p)) as [->|Hrp].
    + exists m. split; [reflexivity | exact Hhead].
    + apply elem_of_cons in Hin as [Heq|Hin]; [congruence|].
      apply IH; assumption.
Qed.

(** Pressing OK on an about box of such a container runs its one slot. *)
Lemma pressButton_aboutGui (p : tgui.WidgetPtr) (g : tgui.Gui) :
  aboutGui g -> p ∈ addresses g -> tgui.pressButton p "OK" g = tgui.remove p g.
Proof.
  intros [_ Hboxes] Hin.
  destruct (find_aboutBox p g Hboxes Hin) as (box & Hfind & Hbuttons & Hslots).
  unfold tgui.pressButton. rewrite Hfind, Hbuttons, Hslots.
  rewrite bool_decide_eq_true_2 by (apply elem_of_cons; left; reflexivity).
  reflexivity.
Qed.

(** X11. The about boxes never get in each other's way.  A container that
    holds about boxes only, at distinct addresses, stays such a container
    when [showInfo] handles any menu item with a new address. *)
Theorem showInfo_keeps_aboutGui (msgBoxAddr : tgui.WidgetPtr) (g : tgui.Gui)
    (menuItem : MenuItem)
    (Hgui : aboutGui g) (Hfresh : msgBoxAddr ∉ addresses g) :
  aboutGui (showInfo msgBoxAddr g menuItem)
  /\ (forall q : tgui.WidgetPtr, q <> msgBoxAddr ->
        tgui.find q (showInfo msgBoxAddr g menuItem) = tgui.find q g).
Proof.
  split; [apply showInfo_aboutGui; assumption|].
  intros q Hq. unfold showInfo.
  destruct (isMenuItem menuItem "Info" "About"); [|reflexivity].
  unfold tgui.add. clear Hgui Hfresh.
  induction g as [|[r m] rest IH]; simpl.
  - rewrite decide_False by congruence. reflexivity.
  - destruct (decide (r = q)); [reflexivity | exact IH].
Qed.

Lemma showInfo_keeps_aboutGui_witness :
  aboutGui (showInfo 3 [] ["Info"; "About"])
  /\ (7%nat ∉ addresses (showInfo 3 [] ["Info"; "About"]))
  /\ aboutGui (showInfo 7 (showInfo 3 [] ["Info"; "About"]) ["Info"; "About"]).
Proof.
  assert (Hgui : aboutGui (showInfo 3 [] ["Info"; "About"])).
  { apply showInfo_aboutGui.
    - split; constructor.
    - apply not_elem_of_nil. }
  assert (Hfresh : 7%nat ∉ addresses (showInfo 3 [] ["Info"; "About"])).
  { change (7%nat ∉ [3%nat]). rewrite elem_of_cons, elem_of_nil.
    intros [H|[]]. discriminate H. }
  split; [exact Hgui|]. split; [exact Hfresh|].
  exact (proj1 (showInfo_keeps_aboutGui 7 (showInfo 3 [] ["Info"; "About"])
                  ["Info"; "About"] Hgui Hfresh)).
Defined.

(** X12. In a container of about boxes at distinct addresses, pressing OK on
    one box takes out that box and no other: its address is gone, every
    other address shows the box it showed before, and the container is
    still one of about boxes at distinct addresses. *)
Theorem pressButton_own_box (p : tgui.WidgetPtr) (g : tgui.Gui)
    (Hgui : aboutGui g) (Hshown : p ∈ addresses g) :
  let g' := tgui.pressButton p "OK" g in
  tgui.find p g' = None
  /\ (forall q : tgui.WidgetPtr, q <> p -> tgui.find q g' = tgui.find q g)
  /\ length g' = pred (length g)
  /\ aboutGui g'.
Proof.
  intros g'. subst g'. rewrite (pressButton_aboutGui p g Hgui Hshown).
  destruct Hgui as [Hnodup Hboxes].
  destruct (remove_NoDup p g Hnodup) as [Hnodup' Hgone].
  split; [apply find_fresh, Hgone|].
  split; [intros q Hq; apply find_remove_ne, Hq|].
  split; [|split; [exact Hnodup' | apply remove_boxes, Hboxes]].
  clear Hnodup Hboxes Hnodup' Hgone. unfold addresses in Hshown.
  induction g as [|[r m] rest IH]; simpl in *.
  - apply elem_of_nil in Hshown. destruct Hshown.
  - destruct (decide (r = p)) as [->|Hrp]; [reflexivity|].
    apply elem_of_cons in Hshown as [Heq|Hin]; [congruence|].
    simpl. rewrite (IH Hin).
    destruct rest; [apply elem_of_nil in Hin; destruct Hin | reflexivity].
Qed.

(** Two about boxes, at 3 and at 7; OK on the first leaves the second. *)
Lemma pressButton_own_box_witness :
  aboutGui (showInfo 7 (showInfo 3 [] ["Info"; "About"]) ["Info"; "About"])
  /\ 3%nat ∈ addresses (showInfo 7 (showInfo 3 [] ["Info"; "About"]) ["Info"; "About"])
  /\ tgui.find 7 (tgui.pressButton 3 "OK"
                    (showInfo 7 (showInfo 3 [] ["Info"; "About"]) ["Info"; "About"]))
     = tgui.find 7 (showInfo 7 (showInfo 3 [] ["Info"; "About"]) ["Info"; "About"]).
Proof.
  assert (Hgui : aboutGui (showInfo 7 (showInfo 3 [] ["Info"; "About"])
                             ["Info"; "About"])).
  { apply showInfo_aboutGui.
    - apply showInfo_aboutGui; [split; constructor | apply not_elem_of_nil].
    - change (7%nat ∉ [3%nat]). rewrite elem_of_cons, elem_of_nil.
      intros [H|[]]. discriminate H. }
  assert (Hshown : 3%nat ∈ addresses (showInfo 7 (showInfo 3 [] ["Info"; "About"])
                                        ["Info"; "About"])).
  { change (3%nat ∈ [3%nat; 7%nat]). apply elem_of_cons. left. reflexivity. }
  split; [exact Hgui|]. split; [exact Hshown|].
  apply (proj1 (proj2 (pressButton_own_box 3 _ Hgui Hshown))). discriminate.
Defined.
